(** * The reaction sub-client of stream-js ([src/reaction.ts])

    A shallow embedding of [StreamReaction]: the request builders [add],
    [addChild] and [update], the target-feed normalisation
    [_convertTargetFeeds], the URL builder [buildURL], the [filter] query
    with its validation of the lookup axis, and [get] and [delete].

    - [filter] destructures its argument with a rest pattern, writes to the
      rest object and hands that object to the transport, so it is embedded
      over a store of JavaScript objects (string-keyed property maps) in a
      state-and-exception monad that also logs the transport calls.
    - [add], [addChild] and [update] only assemble an object literal and pass
      it to the transport; they are embedded as functions returning the
      argument of that one transport call. Their arguments have the
      TypeScript types of the source (an optional member of an option bag is
      an [option]); the body they build is a property map, so that a property
      that is not there differs from one that holds [undefined]. *)

From Stdlib Require Import ZArith String List.
From stdpp Require Import base option list strings gmap pretty.

Local Open Scope string_scope.
Local Open Scope Z_scope.

(** ** JavaScript values *)

(** The primitive values the fields of a [filter] condition can hold.
    Numbers are the integers together with [NaN]. *)
Inductive value : Type :=
  | VUndefined
  | VNull
  | VBool (b : bool)
  | VNum (n : Z)
  | VNaN
  | VStr (s : string).

#[global] Instance value_eq_dec : EqDecision value.
Proof. solve_decision. Defined.

(** [ToBoolean]: what [!v], [v ? a : b], [v && w] and [v || w] test. *)
Definition truthy (v : value) : bool :=
  match v with
  | VUndefined | VNull | VNaN => false
  | VBool b => b
  | VNum n => negb (n =? 0)
  | VStr s => negb (String.eqb s "")
  end.

(** [v && w] and [v || w] return one of their operands. *)
Definition js_and (v w : value) : value := if truthy v then w else v.
Definition js_or (v w : value) : value := if truthy v then v else w.

(** [ToString], as applied to a primitive; an integer is written in decimal
    notation. *)
Definition to_string (v : value) : string :=
  match v with
  | VUndefined => "undefined"
  | VNull => "null"
  | VBool true => "true"
  | VBool false => "false"
  | VNum n => pretty n
  | VNaN => "NaN"
  | VStr s => s
  end.

(** [Array.prototype.join]: [undefined] and [null] elements become the empty
    string, the others go through [ToString]. *)
Definition join_elem (v : value) : string :=
  match v with
  | VUndefined | VNull => ""
  | _ => to_string v
  end.

Fixpoint join (sep : string) (l : list value) : string :=
  match l with
  | [] => ""
  | [v] => join_elem v
  | v :: rest => join_elem v ++ sep ++ join sep rest
  end.

(** ** Objects and the store *)

Definition loc := positive.

(** An object is its own enumerable properties. *)
Abbreviation object := (gmap string value).

(** [o.k]: reading a property that is not there gives [undefined]. *)
Definition prop (o : object) (k : string) : value := default VUndefined (o !! k).

(** The rest of an object pattern [{k1: _, ..., kn: _, ...rest}]: a copy of
    the own properties other than the ones named. *)
Definition rest_props (named : list string) (o : object) : object :=
  foldr delete o named.

(** ** Errors, transport calls and the monad *)

(** [errors.SiteError] is the only error the class constructs; [TypeError] is
    what the language raises when a pattern destructures no object. *)
Variant exn : Type :=
  | SiteError (message : string)
  | TypeError.

(** The argument of [client.get]; [qs] is passed by reference. *)
Record GetOptions : Type := MkGet {
  get_url : string;
  get_qs : option loc;
  get_signature : string }.

Record state : Type := MkState {
  heap : gmap loc object;
  calls : list GetOptions }.

Variant outcome (A : Type) : Type :=
  | Return (a : A)
  | Throw (e : exn).
Arguments Return {A} a.
Arguments Throw {A} e.

Definition M (A : Type) : Type := state → outcome A * state.

#[global] Instance M_ret : MRet M := λ A a st, (Return a, st).
#[global] Instance M_bind : MBind M := λ A B f m st,
  match m st with
  | (Return a, st') => f a st'
  | (Throw e, st') => (Throw e, st')
  end.

Definition throw {A} (e : exn) : M A := λ st, (Throw e, st).

(** Dereference an object; a reference to no object stands for a caller
    passing [undefined]. *)
Definition get_object (l : loc) : M object := λ st,
  match heap st !! l with
  | Some o => (Return o, st)
  | None => (Throw TypeError, st)
  end.

(** A new object, at an address not in use. *)
Definition alloc (o : object) : M loc := λ st,
  let l := fresh (dom (heap st)) in
  (Return l, MkState (<[l := o]> (heap st)) (calls st)).

(** [l.k = v] *)
Definition set_prop (l : loc) (k : string) (v : value) : M unit := λ st,
  match heap st !! l with
  | Some o => (Return tt, MkState (<[l := <[k := v]> o]> (heap st)) (calls st))
  | None => (Throw TypeError, st)
  end.

(** [l.k] *)
Definition get_prop (l : loc) (k : string) : M value :=
  o ← get_object l; mret (prop o k).

(** [this.client.get(opts)]: the transport is a collaborator; the call is
    logged and its response is not modelled. *)
Definition client_get (opts : GetOptions) : M unit := λ st,
  (Return tt, MkState (heap st) (calls st ++ [opts])).

(** ** The class *)

Module Reaction.

Module StreamFeed.
(** Modelled from the spec: the feed handle [StreamFeed] of [./feed], which
    is not among the sources; the class reads only its [id]. *)
Record t : Type := Mk { id : string }.
End StreamFeed.

(** [type TargetFeed = string | StreamFeed] *)
Definition TargetFeed : Type := string + StreamFeed.t.
Definition TargetFeeds : Type := list TargetFeed.

Module IdObject.
(** The object type [{ id: string }] of the [activity] and [reaction]
    arguments. *)
Record t : Type := Mk { id : string }.
End IdObject.

(** [Record<string, unknown>], for [UnknownRecord] and
    [TargetFeedsExtraData]; [U] stands for [unknown]. *)
Abbreviation UnknownRecord U := (gmap string U).
Abbreviation TargetFeedsExtraData U := (gmap string U).

(** What a property of a request body holds: the members of
    [type ReactionBody<T>] are strings, the [data] payload, an array of
    strings or the extra-data record, and a property written from an
    argument that was not given holds [undefined]. *)
Inductive body_value (T U : Type) : Type :=
  | BUndefined
  | BString (s : string)
  | BData (d : T + UnknownRecord U)
  | BStrings (l : list string)
  | BExtraData (x : TargetFeedsExtraData U).
Arguments BUndefined {T U}.
Arguments BString {T U} s.
Arguments BData {T U} d.
Arguments BStrings {T U} l.
Arguments BExtraData {T U} x.

(** [type ReactionBody<T>]: an object whose properties are all optional. *)
Abbreviation ReactionBody T U := (gmap string (body_value T U)).

(** An optional string argument, as a property value. *)
Definition optional_string {T U} (s : option string) : body_value T U :=
  match s with
  | Some s => BString s
  | None => BUndefined
  end.

(** The option bags of [add], [addChild] and [update]. *)
Module AddOptions.
(** [{ id?: string; targetFeeds?: TargetFeeds;
      targetFeedsExtraData?: TargetFeedsExtraData; userId?: string }] *)
Record t (U : Type) : Type := Mk {
  id : option string;
  targetFeeds : option TargetFeeds;
  targetFeedsExtraData : option (TargetFeedsExtraData U);
  userId : option string }.
Arguments Mk {U}.
Arguments id {U}.
Arguments targetFeeds {U}.
Arguments targetFeedsExtraData {U}.
Arguments userId {U}.
(** the default [{}] *)
Definition empty {U} : t U := Mk None None None None.
End AddOptions.

Module AddChildOptions.
Record t (U : Type) : Type := Mk {
  targetFeeds : option TargetFeeds;
  targetFeedsExtraData : option (TargetFeedsExtraData U);
  userId : option string }.
Arguments Mk {U}.
Arguments targetFeeds {U}.
Arguments targetFeedsExtraData {U}.
Arguments userId {U}.
Definition empty {U} : t U := Mk None None None.
End AddChildOptions.

Module UpdateOptions.
(** [targetFeeds?: string[] | StreamFeed[]] *)
Record t (U : Type) : Type := Mk {
  targetFeeds : option (list string + list StreamFeed.t);
  targetFeedsExtraData : option (TargetFeedsExtraData U) }.
Arguments Mk {U}.
Arguments targetFeeds {U}.
Arguments targetFeedsExtraData {U}.
Definition empty {U} : t U := Mk None None.
End UpdateOptions.

(** The argument of [client.post] and [client.put]. *)
Record BodyOptions (B : Type) : Type := MkBodyOptions {
  url : string;
  body : B;
  signature : string }.
Arguments MkBodyOptions {B}.
Arguments url {B}.
Arguments body {B}.
Arguments signature {B}.

(** The argument of [client.delete]. *)
Record DeleteOptions : Type := MkDeleteOptions {
  delete_url : string;
  delete_signature : string }.

Record StreamReaction : Type := MkStreamReaction { token : string }.

(** [buildURL = (...args) => `${['reaction', ...args].join('/')}/`] *)
Definition buildURL (args : list value) : string :=
  join "/" (VStr "reaction" :: args) ++ "/".

(** [_convertTargetFeeds = (targetFeeds = []) =>
      targetFeeds.map((elem) => (typeof elem === 'string' ? elem : elem.id))] *)
Definition _convertTargetFeeds (targetFeeds : option TargetFeeds) : list string :=
  let targetFeeds := default [] targetFeeds in
  map (λ elem : TargetFeed,
         match elem with inl s => s | inr feed => StreamFeed.id feed end)
      targetFeeds.

(** [string[] | StreamFeed[]] seen as [TargetFeeds]. *)
Definition as_TargetFeeds (l : list string + list StreamFeed.t) : TargetFeeds :=
  match l with
  | inl strings => map inl strings
  | inr feeds => map inr feeds
  end.

(** [x instanceof Object ? x.id : x] *)
Definition id_of (x : string + IdObject.t) : string :=
  match x with
  | inr o => IdObject.id o
  | inl s => s
  end.

Section Methods.
Context {ReactionType ChildReactionType U : Type}.
Variable this : StreamReaction.

(** [data] is [None] for a caller that leaves it out (or passes a falsy
    value), the case [data || {}] provides for; an object is truthy. *)
Definition add (kind : string) (activity : string + IdObject.t)
    (data : option ReactionType) (options : option (AddOptions.t U))
    : BodyOptions (ReactionBody ReactionType U) :=
  let options := default AddOptions.empty options in
  let id := AddOptions.id options in
  let targetFeeds := default [] (AddOptions.targetFeeds options) in
  let userId := AddOptions.userId options in
  let targetFeedsExtraData := AddOptions.targetFeedsExtraData options in
  let body : ReactionBody ReactionType U :=
    {[ "id" := optional_string id;
       "activity_id" := BString (id_of activity);
       "kind" := BString kind;
       "data" := BData (match data with Some d => inl d | None => inr ∅ end);
       "target_feeds" := BStrings (_convertTargetFeeds (Some targetFeeds));
       "user_id" := optional_string userId ]} in
  let body :=
    match targetFeedsExtraData with
    | Some x => <["target_feeds_extra_data" := BExtraData x]> body
    | None => body
    end in
  {| url := buildURL []; body := body; signature := token this |}.

Definition addChild (kind : string) (reaction : string + IdObject.t)
    (data : option ChildReactionType) (options : option (AddChildOptions.t U))
    : BodyOptions (ReactionBody ChildReactionType U) :=
  let options := default AddChildOptions.empty options in
  let targetFeeds := default [] (AddChildOptions.targetFeeds options) in
  let userId := AddChildOptions.userId options in
  let targetFeedsExtraData := AddChildOptions.targetFeedsExtraData options in
  let body : ReactionBody ChildReactionType U :=
    {[ "parent" := BString (id_of reaction);
       "kind" := BString kind;
       "data" := BData (match data with Some d => inl d | None => inr ∅ end);
       "target_feeds" := BStrings (_convertTargetFeeds (Some targetFeeds));
       "user_id" := optional_string userId ]} in
  let body :=
    match targetFeedsExtraData with
    | Some x => <["target_feeds_extra_data" := BExtraData x]> body
    | None => body
    end in
  {| url := buildURL []; body := body; signature := token this |}.

Definition update (id : string) (data : ReactionType + ChildReactionType)
    (options : option (UpdateOptions.t U))
    : BodyOptions (ReactionBody (ReactionType + ChildReactionType) U) :=
  let options := default UpdateOptions.empty options in
  let targetFeeds := default (inl []) (UpdateOptions.targetFeeds options) in
  let targetFeedsExtraData := UpdateOptions.targetFeedsExtraData options in
  let body : ReactionBody (ReactionType + ChildReactionType) U :=
    {[ "data" := BData (inl data);
       "target_feeds" :=
         BStrings (_convertTargetFeeds (Some (as_TargetFeeds targetFeeds))) ]} in
  let body :=
    match targetFeedsExtraData with
    | Some x => <["target_feeds_extra_data" := BExtraData x]> body
    | None => body
    end in
  {| url := buildURL [VStr id]; body := body; signature := token this |}.

Definition get (id : string) : M unit :=
  client_get (MkGet (buildURL [VStr id]) None (token this)).

Definition filter_message : string :=
  "Must provide exactly one value for one of these params: user_id, activity_id, reaction_id".

Definition filter (conditions : loc) : M unit :=
  c ← get_object conditions;
  let userId := prop c "user_id" in
  let activityId := prop c "activity_id" in
  let reactionId := prop c "reaction_id" in
  qs ← alloc (rest_props ["user_id"; "activity_id"; "reaction_id"] c);
  limit ← get_prop qs "limit";
  (if negb (truthy limit) then set_prop qs "limit" (VNum 10) else mret tt);;
  if negb ((if truthy userId then 1 else 0) + (if truthy activityId then 1 else 0)
           + (if truthy reactionId then 1 else 0) =? 1)
  then throw (SiteError filter_message)
  else
    let lookupType :=
      js_or (js_or (js_and userId (VStr "user_id"))
                   (js_and activityId (VStr "activity_id")))
            (js_and reactionId (VStr "reaction_id")) in
    let value := js_or (js_or userId activityId) reactionId in
    kind ← get_prop conditions "kind";
    let url :=
      if truthy kind then buildURL [lookupType; value; kind]
      else buildURL [lookupType; value] in
    client_get (MkGet url (Some qs) (token this)).

Definition delete (id : string) : DeleteOptions :=
  {| delete_url := buildURL [VStr id]; delete_signature := token this |}.
End Methods.

End Reaction.

(** Run a method from a store, with no transport call made yet. *)
Definition run {A} (m : M A) (h : gmap loc object) : outcome A * state :=
  m (MkState h []).

(** ** Vocabulary of the statements *)

(** The three fields that select the lookup axis, in the order the source
    tests them. *)
Definition axis_fields : list string := ["user_id"; "activity_id"; "reaction_id"].

(** How many axis fields hold a truthy value. *)
Definition truthy_axes (c : object) : nat :=
  length (List.filter (λ k, truthy (prop c k)) axis_fields).

(** How many axis fields are properties of the object at all. *)
Definition present_axes (c : object) : nat :=
  length (List.filter (λ k, bool_decide (is_Some (c !! k))) axis_fields).

(** The validation failure of [filter]: the [SiteError] is thrown and the
    transport has not been called. *)
Definition rejected (res : outcome unit * state) : Prop :=
  res.1 = Throw (SiteError Reaction.filter_message) ∧ calls res.2 = [].

(** The request of a run that returned after exactly one transport call:
    its URL, its signature and the query parameters, which are the
    properties the [qs] object has when the run ends. *)
Definition sent (res : outcome unit * state) : option (string * string * object) :=
  match res.1, calls res.2 with
  | Return _, [MkGet url (Some qs) sig] => (λ q, (url, sig, q)) <$> heap res.2 !! qs
  | _, _ => None
  end.

(** The identifier a target-feed entry stands for. *)
Definition feed_identifier (elem : Reaction.TargetFeed) : string :=
  match elem with
  | inl s => s
  | inr feed => Reaction.StreamFeed.id feed
  end.

(** [needle] occurs in [s]. *)
Definition occurs_in (needle s : string) : bool :=
  bool_decide (is_Some (String.index 0 needle s)).

(** ** Sample calls *)

Definition sample_client : Reaction.StreamReaction :=
  Reaction.MkStreamReaction "token".

(** A store whose only object is the argument of the call, at address 1. *)
Definition store_of (c : object) : gmap loc object := {[ 1%positive := c ]}.

(** [{user_id: "john", kind: "like"}] *)
Definition by_user_and_kind : object :=
  {[ "user_id" := VStr "john"; "kind" := VStr "like" ]}.

(** [{user_id: "john", kind: ""}] *)
Definition by_user_empty_kind : object :=
  {[ "user_id" := VStr "john"; "kind" := VStr "" ]}.

(** [{user_id: ""}] *)
Definition empty_user : object := {[ "user_id" := VStr "" ]}.

(** [{user_id: "", activity_id: "a1"}] *)
Definition empty_user_and_activity : object :=
  {[ "user_id" := VStr ""; "activity_id" := VStr "a1" ]}.

(** [{activity_id: "a1", limit: 0}] *)
Definition by_activity_limit_zero : object :=
  {[ "activity_id" := VStr "a1"; "limit" := VNum 0 ]}.

(** [{user_id: "john/like"}] *)
Definition by_user_with_slash : object := {[ "user_id" := VStr "john/like" ]}.

(** [{reaction_id: "r1", limit: 1000, id_lt: "x"}] *)
Definition by_reaction_limit_1000 : object :=
  {[ "reaction_id" := VStr "r1"; "limit" := VNum 1000; "id_lt" := VStr "x" ]}.

(** [[feed, "timeline:2"]] with [feed.id = "user:1"], and the same list
    written with identifiers only. *)
Definition sample_feeds : Reaction.TargetFeeds :=
  [inr (Reaction.StreamFeed.Mk "user:1"); inl "timeline:2"].
Definition sample_feed_ids : Reaction.TargetFeeds :=
  [inl "user:1"; inl "timeline:2"].

(** ** The run of [filter] *)

Lemma bind_run {A B} (m : M A) (f : A → M B) (st : state) :
  (m ≫= f) st =
    match m st with
    | (Return a, st') => f a st'
    | (Throw e, st') => (Throw e, st')
    end.
Proof. reflexivity. Qed.

Ltac run_step :=
  repeat (rewrite ?bind_run;
          unfold get_prop, get_object, alloc, set_prop, client_get, throw, mret, M_ret;
          cbn [heap calls app]).

Section FilterRun.
Variable this : Reaction.StreamReaction.
Variables (h : gmap loc object) (conditions : loc) (c : object).
Hypothesis Hc : h !! conditions = Some c.

Let qs : loc := fresh (dom h).
Let r : object := rest_props axis_fields c.

Lemma qs_fresh : h !! qs = None.
Proof. apply not_elem_of_dom, is_fresh. Qed.

Lemma qs_not_conditions : qs ≠ conditions.
Proof. intros E. pose proof qs_fresh as F. rewrite E, Hc in F. discriminate. Qed.

Lemma truthy_axes_count :
  ((if truthy (prop c "user_id") then 1 else 0)
   + (if truthy (prop c "activity_id") then 1 else 0)
   + (if truthy (prop c "reaction_id") then 1 else 0) =? 1)%Z
  = bool_decide (truthy_axes c = 1%nat).
Proof.
  unfold truthy_axes, axis_fields. simpl.
  destruct (truthy (prop c "user_id")), (truthy (prop c "activity_id")),
    (truthy (prop c "reaction_id")); reflexivity.
Qed.

(** What the store and the call log are after [filter], in both branches
    of the validation. *)
Lemma filter_run :
  run (Reaction.filter this conditions) h =
    let q := if truthy (prop r "limit") then r else <["limit" := VNum 10]> r in
    let lookupType :=
      js_or (js_or (js_and (prop c "user_id") (VStr "user_id"))
                   (js_and (prop c "activity_id") (VStr "activity_id")))
            (js_and (prop c "reaction_id") (VStr "reaction_id")) in
    let value := js_or (js_or (prop c "user_id") (prop c "activity_id"))
                       (prop c "reaction_id") in
    let url :=
      if truthy (prop c "kind")
      then Reaction.buildURL [lookupType; value; prop c "kind"]
      else Reaction.buildURL [lookupType; value] in
    if bool_decide (truthy_axes c = 1%nat)
    then (Return tt,
          MkState (<[qs := q]> h) [MkGet url (Some qs) (Reaction.token this)])
    else (Throw (SiteError Reaction.filter_message), MkState (<[qs := q]> h) []).
Proof.
  pose proof qs_not_conditions as Hne.
  unfold run, Reaction.filter. fold axis_fields. fold r.
  run_step. rewrite Hc. run_step. fold qs.
  rewrite lookup_insert_eq. run_step.
  rewrite truthy_axes_count. unfold r.
  destruct (truthy (prop (rest_props axis_fields c) "limit")); cbn [negb]; run_step.
  - destruct (bool_decide (truthy_axes c = 1%nat)); cbn [negb]; run_step; [|done].
    rewrite lookup_insert_ne, Hc by done. reflexivity.
  - rewrite lookup_insert_eq, insert_insert_eq.
    destruct (bool_decide (truthy_axes c = 1%nat)); cbn [negb]; run_step; [|done].
    rewrite lookup_insert_ne, Hc by done. reflexivity.
Qed.
End FilterRun.

(** ** Request bodies of [add], [addChild] and [update] *)

Section Bodies.
Context {ReactionType ChildReactionType U : Type}.
Variable this : Reaction.StreamReaction.

Lemma convert_strings (l : list string) :
  Reaction._convertTargetFeeds (Some (map inl l)) = l.
Proof.
  unfold Reaction._convertTargetFeeds. simpl.
  induction l as [|s l IH]; [reflexivity|]. simpl. f_equal. exact IH.
Qed.

Lemma convert_feeds (l : list Reaction.StreamFeed.t) :
  Reaction._convertTargetFeeds (Some (map inr l)) = map Reaction.StreamFeed.id l.
Proof.
  unfold Reaction._convertTargetFeeds. simpl.
  induction l as [|f l IH]; [reflexivity|]. simpl. f_equal. exact IH.
Qed.

(** C3: [add] with a raw id string [s] and with the object [{id: s}] make
    the same request body, with [activity_id] resolved to [s] and no
    [parent]; likewise [addChild], which puts the id in [parent] and has no
    [activity_id]. *)
Theorem add_string_or_object_same_body
    (kind s : string) (data : option ReactionType)
    (dataC : option ChildReactionType)
    (options : option (Reaction.AddOptions.t U))
    (optionsC : option (Reaction.AddChildOptions.t U)) :
  (Reaction.body (Reaction.add this kind (inl s) data options)
   = Reaction.body (Reaction.add this kind (inr (Reaction.IdObject.Mk s)) data options)
   ∧ Reaction.body (Reaction.add this kind (inl s) data options) !! "activity_id"
     = Some (Reaction.BString s)
   ∧ Reaction.body (Reaction.add this kind (inl s) data options) !! "parent"
     = None)
  ∧ (Reaction.body (Reaction.addChild this kind (inl s) dataC optionsC)
     = Reaction.body
         (Reaction.addChild this kind (inr (Reaction.IdObject.Mk s)) dataC optionsC)
     ∧ Reaction.body (Reaction.addChild this kind (inl s) dataC optionsC) !! "parent"
       = Some (Reaction.BString s)
     ∧ Reaction.body (Reaction.addChild this kind (inl s) dataC optionsC)
         !! "activity_id" = None).
Proof.
  split; (split; [reflexivity|]).
  - unfold Reaction.add. cbn [Reaction.body].
    destruct (Reaction.AddOptions.targetFeedsExtraData _); split; reflexivity.
  - unfold Reaction.addChild. cbn [Reaction.body].
    destruct (Reaction.AddChildOptions.targetFeedsExtraData _); split; reflexivity.
Qed.

(** C4: the bodies of [add], [addChild] and [update] have the property
    [target_feeds_extra_data] exactly when the caller gave
    [targetFeedsExtraData], and then it holds the record given, the empty
    record included; with none given, or no option bag, the body has no such
    property. *)
Theorem target_feeds_extra_data_as_supplied
    (kind : string) (x : string + Reaction.IdObject.t) (id : string)
    (data : option ReactionType) (dataC : option ChildReactionType)
    (dataU : ReactionType + ChildReactionType)
    (options : option (Reaction.AddOptions.t U))
    (optionsC : option (Reaction.AddChildOptions.t U))
    (optionsU : option (Reaction.UpdateOptions.t U)) :
  Reaction.body (Reaction.add this kind x data options) !! "target_feeds_extra_data"
  = Reaction.BExtraData <$> (options ≫= Reaction.AddOptions.targetFeedsExtraData)
  ∧ Reaction.body (Reaction.addChild this kind x dataC optionsC)
      !! "target_feeds_extra_data"
    = Reaction.BExtraData <$> (optionsC ≫= Reaction.AddChildOptions.targetFeedsExtraData)
  ∧ Reaction.body (Reaction.update this id dataU optionsU)
      !! "target_feeds_extra_data"
    = Reaction.BExtraData <$> (optionsU ≫= Reaction.UpdateOptions.targetFeedsExtraData).
Proof.
  repeat split.
  - destruct options as [[i tf [e|] u]|]; reflexivity.
  - destruct optionsC as [[tf [e|] u]|]; reflexivity.
  - destruct optionsU as [[tf [e|]]|]; reflexivity.
Qed.

Lemma update_target_feeds (id : string) (data : ReactionType + ChildReactionType)
    (tf : option (list string + list Reaction.StreamFeed.t))
    (e : option (Reaction.TargetFeedsExtraData U)) :
  Reaction.body (Reaction.update this id data (Some (Reaction.UpdateOptions.Mk tf e)))
    !! "target_feeds"
  = Some (Reaction.BStrings (Reaction._convertTargetFeeds
                      (Some (Reaction.as_TargetFeeds (default (inl []) tf))))).
Proof. destruct e; reflexivity. Qed.

(** C5: the body of [update] always has [target_feeds]: the identifiers of
    the caller's list when [targetFeeds] is given and the empty array when
    it is not, so that leaving [targetFeeds] out and passing an empty list
    give the same body. *)
Theorem update_always_sends_target_feeds
    (id : string) (data : ReactionType + ChildReactionType)
    (options : option (Reaction.UpdateOptions.t U))
    (extra : option (Reaction.TargetFeedsExtraData U)) :
  Reaction.body (Reaction.update this id data options) !! "target_feeds"
  = Some (Reaction.BStrings
            match options ≫= Reaction.UpdateOptions.targetFeeds with
            | Some (inl strings) => strings
            | Some (inr feeds) => map Reaction.StreamFeed.id feeds
            | None => []
            end)
  ∧ Reaction.body
      (Reaction.update this id data (Some (Reaction.UpdateOptions.Mk None extra)))
    = Reaction.body
        (Reaction.update this id data
           (Some (Reaction.UpdateOptions.Mk (Some (inl [])) extra)))
  ∧ Reaction.body
      (Reaction.update this id data (Some (Reaction.UpdateOptions.Mk None extra)))
    = Reaction.body
        (Reaction.update this id data
           (Some (Reaction.UpdateOptions.Mk (Some (inr [])) extra)))
  ∧ Reaction.body (Reaction.update (U := U) this id data None)
    = Reaction.body
        (Reaction.update this id data
           (Some (Reaction.UpdateOptions.Mk (Some (inl [])) None))).
Proof.
  repeat split; try reflexivity.
  destruct options as [[tf e]|]; [|reflexivity].
  rewrite update_target_feeds. do 2 f_equal.
  destruct tf as [[l|l]|];
    cbn [default mbind option_bind Reaction.as_TargetFeeds
         Reaction.UpdateOptions.targetFeeds from_option Datatypes.id].
  - apply convert_strings.
  - apply convert_feeds.
  - reflexivity.
Qed.

(** C6: the normalisation of a target-feed list takes each entry to its
    identifier (a string to itself, a feed handle to its [id]), keeping
    the length and the order; [add], [addChild] and [update] put its
    result in [target_feeds]. *)
Theorem convertTargetFeeds_pointwise
    (l : Reaction.TargetFeeds)
    (kind id : string) (x : string + Reaction.IdObject.t)
    (data : option ReactionType) (dataC : option ChildReactionType)
    (dataU : ReactionType + ChildReactionType)
    (rid userId : option string) (extra : option (Reaction.TargetFeedsExtraData U))
    (ls : list string + list Reaction.StreamFeed.t) :
  length (Reaction._convertTargetFeeds (Some l)) = length l
  ∧ (∀ i : nat,
       Reaction._convertTargetFeeds (Some l) !! i = feed_identifier <$> (l !! i))
  ∧ Reaction.body
      (Reaction.add this kind x data
         (Some (Reaction.AddOptions.Mk rid (Some l) extra userId)))
      !! "target_feeds"
    = Some (Reaction.BStrings (Reaction._convertTargetFeeds (Some l)))
  ∧ Reaction.body
      (Reaction.addChild this kind x dataC
         (Some (Reaction.AddChildOptions.Mk (Some l) extra userId)))
      !! "target_feeds"
    = Some (Reaction.BStrings (Reaction._convertTargetFeeds (Some l)))
  ∧ Reaction.body
      (Reaction.update this id dataU
         (Some (Reaction.UpdateOptions.Mk (Some ls) extra)))
      !! "target_feeds"
    = Some (Reaction.BStrings
              (Reaction._convertTargetFeeds (Some (Reaction.as_TargetFeeds ls)))).
Proof.
  split; [apply length_map|].
  split; [intros i; apply (list_lookup_fmap feed_identifier l i)|].
  destruct extra; repeat split; reflexivity.
Qed.
End Bodies.

(** ** Strings and URLs *)

Example buildURL_no_argument : Reaction.buildURL [] = "reaction/".
Proof. reflexivity. Qed.

Example buildURL_of_id : Reaction.buildURL [VStr "r1"] = "reaction/r1/".
Proof. reflexivity. Qed.

Lemma append_assoc (s1 s2 s3 : string) : (s1 ++ s2) ++ s3 = s1 ++ (s2 ++ s3).
Proof.
  induction s1 as [|a s1 IH]; [reflexivity|].
  change (String a ((s1 ++ s2) ++ s3) = String a (s1 ++ (s2 ++ s3))).
  f_equal. exact IH.
Qed.

Lemma join_strings (s : string) (l : list string) :
  join "/" (VStr s :: map VStr l) ++ "/"
  = s ++ "/" ++ foldr (λ t acc, t ++ "/" ++ acc) "" l.
Proof.
  revert s. induction l as [|t l IH]; intros s; [reflexivity|].
  change (join "/" (VStr s :: map VStr (t :: l)))
    with (s ++ "/" ++ join "/" (VStr t :: map VStr l)).
  rewrite !append_assoc, IH. reflexivity.
Qed.

(** Every segment of the URL is followed by a slash. *)
Lemma buildURL_strings (l : list string) :
  Reaction.buildURL (map VStr l)
  = "reaction/" ++ foldr (λ t acc, t ++ "/" ++ acc) "" l.
Proof. unfold Reaction.buildURL. apply (join_strings "reaction" l). Qed.

(** ** The rest object and the lookup axis *)

Lemma elem_of_axis_fields (k : string) :
  k ∈ axis_fields ↔ k = "user_id" ∨ k = "activity_id" ∨ k = "reaction_id".
Proof. unfold axis_fields. rewrite !elem_of_cons, elem_of_nil. tauto. Qed.

Lemma lookup_rest_props (named : list string) (o : object) (k : string) :
  rest_props named o !! k = if decide (k ∈ named) then None else o !! k.
Proof.
  unfold rest_props. induction named as [|n named IH]; cbn [foldr].
  - rewrite decide_False; [done | apply not_elem_of_nil].
  - rewrite lookup_delete. destruct (decide (n = k)) as [->|Hn].
    + rewrite decide_True; [done | apply list_elem_of_here].
    + rewrite IH. destruct (decide (k ∈ named)) as [Hk|Hk].
      * rewrite decide_True; [done | by apply list_elem_of_further].
      * rewrite decide_False; [done|]. rewrite elem_of_cons. intros [?|?]; congruence.
Qed.

(** The query object: the conditions without the axis fields, with [limit]
    put to 10 where the conditions have no truthy [limit]. *)
Lemma lookup_query (c : object) (k : string) :
  let r := rest_props axis_fields c in
  (if truthy (prop r "limit") then r else <["limit" := VNum 10]> r) !! k
  = if decide (k = "limit" ∧ truthy (prop c "limit") = false) then Some (VNum 10)
    else if decide (k ∈ axis_fields) then None
    else c !! k.
Proof.
  cbn zeta.
  assert (prop (rest_props axis_fields c) "limit" = prop c "limit") as ->.
  { unfold prop. rewrite lookup_rest_props. rewrite decide_False; [done|].
    rewrite elem_of_axis_fields. intros [?|[?|?]]; discriminate. }
  destruct (truthy (prop c "limit")) eqn:Hl.
  - rewrite decide_False by (intros [_ ?]; discriminate). apply lookup_rest_props.
  - destruct (decide (k = "limit")) as [->|Hk].
    + rewrite decide_True by done. apply lookup_insert_eq.
    + rewrite decide_False by (intros [? _]; done).
      rewrite lookup_insert_ne by done. apply lookup_rest_props.
Qed.

(** With one truthy axis field, [lookupType] is the name of that field and
    [value] is what it holds. *)
Lemma axis_selected (c : object) :
  truthy_axes c = 1%nat →
  ∃ a, a ∈ axis_fields ∧ truthy (prop c a) = true
    ∧ (∀ k, k ∈ axis_fields → k ≠ a → truthy (prop c k) = false)
    ∧ js_or (js_or (js_and (prop c "user_id") (VStr "user_id"))
                   (js_and (prop c "activity_id") (VStr "activity_id")))
            (js_and (prop c "reaction_id") (VStr "reaction_id")) = VStr a
    ∧ js_or (js_or (prop c "user_id") (prop c "activity_id")) (prop c "reaction_id")
      = prop c a.
Proof.
  unfold truthy_axes, axis_fields. cbn [List.filter].
  destruct (truthy (prop c "user_id")) eqn:Hu,
           (truthy (prop c "activity_id")) eqn:Ha,
           (truthy (prop c "reaction_id")) eqn:Hr; try discriminate; intros _.
  - exists "user_id". rewrite elem_of_axis_fields.
    repeat split; [tauto|done| |..];
      [|unfold js_or, js_and; rewrite ?Hu; cbn; rewrite ?Hu; done..].
    intros k [-> | [-> | ->]]%elem_of_axis_fields ?; done.
  - exists "activity_id". rewrite elem_of_axis_fields.
    repeat split; [tauto|done| |..];
      [|unfold js_or, js_and; rewrite ?Hu, ?Ha; cbn; rewrite ?Hu, ?Ha; done..].
    intros k [-> | [-> | ->]]%elem_of_axis_fields ?; done.
  - exists "reaction_id". rewrite elem_of_axis_fields.
    repeat split; [tauto|done| |..];
      [|unfold js_or, js_and; rewrite ?Hu, ?Ha, ?Hr; cbn;
        rewrite ?Hu, ?Ha, ?Hr; done..].
    intros k [-> | [-> | ->]]%elem_of_axis_fields ?; done.
Qed.

(** Conversely, one truthy axis field next to two falsy ones passes the
    count. *)
Lemma truthy_axes_one (c : object) (a : string) :
  a ∈ axis_fields → truthy (prop c a) = true →
  (∀ k, k ∈ axis_fields → k ≠ a → truthy (prop c k) = false) →
  truthy_axes c = 1%nat.
Proof.
  intros Ha Ht Hothers. unfold truthy_axes, axis_fields. cbn [List.filter].
  apply elem_of_axis_fields in Ha as [-> | [-> | ->]]; rewrite Ht;
    rewrite !Hothers by (rewrite ?elem_of_axis_fields; (tauto || discriminate));
    reflexivity.
Qed.

(** ** [filter]: validation, URL and query *)

Section Filter.
Variable this : Reaction.StreamReaction.
Variables (h : gmap loc object) (conditions : loc) (c : object).
Hypothesis Hc : h !! conditions = Some c.

Lemma filter_rejects :
  truthy_axes c ≠ 1%nat → rejected (run (Reaction.filter this conditions) h).
Proof.
  intros Hn. rewrite (filter_run this h conditions c Hc). cbn zeta.
  rewrite bool_decide_eq_false_2 by done. split; reflexivity.
Qed.

(** A run that passes the validation: one call, to the URL of the selected
    axis, with the rest object as query. *)
Lemma filter_sends :
  truthy_axes c = 1%nat →
  ∃ a q,
    a ∈ axis_fields ∧ truthy (prop c a) = true
    ∧ (∀ k, k ∈ axis_fields → k ≠ a → truthy (prop c k) = false)
    ∧ (run (Reaction.filter this conditions) h).1 = Return tt
    ∧ sent (run (Reaction.filter this conditions) h)
      = Some (if truthy (prop c "kind")
              then Reaction.buildURL [VStr a; prop c a; prop c "kind"]
              else Reaction.buildURL [VStr a; prop c a],
              Reaction.token this, q)
    ∧ ∀ k, q !! k
           = if decide (k = "limit" ∧ truthy (prop c "limit") = false)
             then Some (VNum 10)
             else if decide (k ∈ axis_fields) then None
             else c !! k.
Proof.
  intros H1. destruct (axis_selected c H1) as (a & Ha & Ht & Hothers & Hl & Hv).
  exists a. eexists. do 3 (split; [done|]).
  rewrite (filter_run this h conditions c Hc). cbn zeta.
  rewrite bool_decide_eq_true_2 by done. rewrite Hl, Hv.
  split; [reflexivity|]. unfold sent. cbn [fst snd calls heap].
  rewrite lookup_insert_eq. split; [reflexivity|].
  intros k. apply lookup_query.
Qed.

(** The request for typed conditions: the axis holds the non-empty string
    [v], the two other axis fields are falsy and [kind] is a string or is
    not there. *)
Lemma filter_request (axis v : string) (kind : option string) :
  axis ∈ axis_fields → c !! axis = Some (VStr v) → v ≠ "" →
  (∀ k, k ∈ axis_fields → k ≠ axis → truthy (prop c k) = false) →
  c !! "kind" = VStr <$> kind →
  ∃ q,
    sent (run (Reaction.filter this conditions) h)
    = Some ("reaction/" ++ axis ++ "/" ++ v ++ "/"
              ++ match kind with
                 | Some k => if decide (k = "") then "" else k ++ "/"
                 | None => ""
                 end,
            Reaction.token this, q)
    ∧ ∀ k, q !! k
           = if decide (k = "limit" ∧ truthy (prop c "limit") = false)
             then Some (VNum 10)
             else if decide (k ∈ axis_fields) then None
             else c !! k.
Proof.
  intros Haxis Hv Hne Hothers Hkind.
  assert (prop c axis = VStr v) as Hp by (unfold prop; rewrite Hv; done).
  assert (truthy (prop c axis) = true) as Ht.
  { rewrite Hp. cbn. apply negb_true_iff, String.eqb_neq. exact Hne. }
  destruct (filter_sends (truthy_axes_one c axis Haxis Ht Hothers))
    as (a & q & Ha & Hta & _ & _ & Hsent & Hq).
  assert (a = axis) as ->.
  { destruct (decide (a = axis)) as [|Hd]; [done|].
    rewrite (Hothers a Ha Hd) in Hta. discriminate. }
  exists q. split; [|exact Hq]. rewrite Hsent, Hp. f_equal. f_equal. f_equal.
  unfold prop. rewrite Hkind.
  destruct kind as [k|];
    cbn [fmap option_fmap option_map default from_option Datatypes.id truthy].
  - destruct (decide (k = "")) as [->|Hk].
    + cbn. apply (buildURL_strings [axis; v]).
    + apply String.eqb_neq in Hk. rewrite Hk. cbn [negb].
      apply (buildURL_strings [axis; v; k]).
  - apply (buildURL_strings [axis; v]).
Qed.
End Filter.

(** C1, as amended: [filter] counts the axis fields [user_id],
    [activity_id], [reaction_id] that hold a truthy value (a non-empty
    string). If that number is not one, it throws the validation error, whose
    message names the three fields, and the transport is not called; if it is
    one, no error is raised and one request is issued. *)
Theorem filter_validates_truthy_axes
    (this : Reaction.StreamReaction) (h : gmap loc object) (conditions : loc)
    (c : object) :
  h !! conditions = Some c →
  (truthy_axes c ≠ 1%nat → rejected (run (Reaction.filter this conditions) h))
  ∧ (truthy_axes c = 1%nat →
     (run (Reaction.filter this conditions) h).1 = Return tt
     ∧ ∃ url q, sent (run (Reaction.filter this conditions) h)
                = Some (url, Reaction.token this, q))
  ∧ (∀ k, k ∈ axis_fields → occurs_in k Reaction.filter_message = true).
Proof.
  intros Hc. split; [|split].
  - apply filter_rejects, Hc.
  - intros H1. destruct (filter_sends this h conditions c Hc H1)
      as (a & q & _ & _ & _ & Hret & Hsent & _).
    split; [exact Hret|]. eauto.
  - intros k [-> | [-> | ->]]%elem_of_axis_fields; vm_compute; reflexivity.
Qed.

Lemma filter_validates_truthy_axes_witness :
  store_of by_user_and_kind !! 1%positive = Some by_user_and_kind
  ∧ truthy_axes by_user_and_kind = 1%nat
  ∧ (run (Reaction.filter sample_client 1%positive) (store_of by_user_and_kind)).1
    = Return tt
  ∧ truthy_axes empty_user ≠ 1%nat
  ∧ rejected (run (Reaction.filter sample_client 1%positive) (store_of empty_user)).
Proof.
  split; [reflexivity|]. split; [reflexivity|]. split.
  - apply (filter_validates_truthy_axes sample_client (store_of by_user_and_kind)
             1%positive by_user_and_kind eq_refl); reflexivity.
  - split; [discriminate|].
    apply (filter_validates_truthy_axes sample_client (store_of empty_user)
             1%positive empty_user eq_refl); discriminate.
Defined.

(** C1, as stated, fails: with [{user_id: ""}] exactly one axis field is
    present and the call is rejected; with [{user_id: "", activity_id: "a1"}]
    two are present and the request is issued. *)
Lemma filter_present_axes_counterexample :
  (present_axes empty_user = 1%nat
   ∧ (run (Reaction.filter sample_client 1%positive) (store_of empty_user)).1
     = Throw (SiteError Reaction.filter_message))
  ∧ (present_axes empty_user_and_activity = 2%nat
     ∧ (run (Reaction.filter sample_client 1%positive)
          (store_of empty_user_and_activity)).1 = Return tt
     ∧ calls (run (Reaction.filter sample_client 1%positive)
                (store_of empty_user_and_activity)).2
       = [MkGet "reaction/activity_id/a1/" (Some 2%positive) "token"]).
Proof. repeat split; vm_compute; reflexivity. Qed.

(** C2, as amended: for a call that passes the validation, the URL is
    [reaction/{axis}/{value}/{kind}/] when [kind] is a non-empty string and
    [reaction/{axis}/{value}/] otherwise, and the query parameters are all the
    properties of the conditions other than the three axis fields, with
    [limit] put to 10 when the conditions have no truthy [limit]: the range
    cursors, [with_activity_data], [limit], and also [kind] when the
    conditions have it. *)
Theorem filter_url_and_query
    (this : Reaction.StreamReaction) (h : gmap loc object) (conditions : loc)
    (c : object) (axis v : string) (kind : option string) :
  h !! conditions = Some c →
  axis ∈ axis_fields → c !! axis = Some (VStr v) → v ≠ "" →
  (∀ k, k ∈ axis_fields → k ≠ axis → truthy (prop c k) = false) →
  c !! "kind" = VStr <$> kind →
  ∃ q,
    sent (run (Reaction.filter this conditions) h)
    = Some ("reaction/" ++ axis ++ "/" ++ v ++ "/"
              ++ match kind with
                 | Some k => if decide (k = "") then "" else k ++ "/"
                 | None => ""
                 end,
            Reaction.token this, q)
    ∧ (∀ k, q !! k
            = if decide (k = "limit" ∧ truthy (prop c "limit") = false)
              then Some (VNum 10)
              else if decide (k ∈ axis_fields) then None
              else c !! k)
    ∧ q !! "kind" = c !! "kind".
Proof.
  intros Hc Haxis Hv Hne Hothers Hkind.
  destruct (filter_request this h conditions c Hc axis v kind
              Haxis Hv Hne Hothers Hkind) as (q & Hsent & Hq).
  exists q. split; [exact Hsent|]. split; [exact Hq|].
  rewrite Hq. rewrite decide_False by (intros [? _]; discriminate).
  rewrite decide_False; [done|].
  rewrite elem_of_axis_fields. intros [?|[?|?]]; discriminate.
Qed.

Lemma sample_other_axes_falsy (c : object) :
  truthy (prop c "activity_id") = false → truthy (prop c "reaction_id") = false →
  ∀ k, k ∈ axis_fields → k ≠ "user_id" → truthy (prop c k) = false.
Proof. intros Ha Hr k [-> | [-> | ->]]%elem_of_axis_fields ?; done. Qed.

Lemma filter_url_and_query_witness :
  ∃ q,
    sent (run (Reaction.filter sample_client 1%positive) (store_of by_user_and_kind))
    = Some ("reaction/user_id/john/like/", "token", q)
    ∧ (∀ k, q !! k
            = if decide (k = "limit" ∧ truthy (prop by_user_and_kind "limit") = false)
              then Some (VNum 10)
              else if decide (k ∈ axis_fields) then None
              else by_user_and_kind !! k)
    ∧ q !! "kind" = Some (VStr "like").
Proof.
  apply (filter_url_and_query sample_client (store_of by_user_and_kind) 1%positive
           by_user_and_kind "user_id" "john" (Some "like") eq_refl).
  - apply elem_of_axis_fields. left. reflexivity.
  - reflexivity.
  - discriminate.
  - apply sample_other_axes_falsy; reflexivity.
  - reflexivity.
Defined.

(** C2, as stated, fails: for [{user_id: "john", kind: "like"}] the query
    parameters include [kind]; and for [{user_id: "john", kind: ""}], where
    [kind] is present, the URL has no segment for it. *)
Lemma filter_kind_in_query_counterexample :
  sent (run (Reaction.filter sample_client 1%positive) (store_of by_user_and_kind))
  = Some ("reaction/user_id/john/like/", "token",
          {[ "kind" := VStr "like"; "limit" := VNum 10 ]})
  ∧ by_user_empty_kind !! "kind" = Some (VStr "")
  ∧ sent (run (Reaction.filter sample_client 1%positive) (store_of by_user_empty_kind))
    = Some ("reaction/user_id/john/", "token",
            {[ "kind" := VStr ""; "limit" := VNum 10 ]}).
Proof. repeat split; vm_compute; reflexivity. Qed.

(** C7: when the conditions specify no [limit] (the property is not there,
    or is [undefined]), the query of the request carries [limit = 10]. *)
Theorem filter_limit_defaults_to_10
    (this : Reaction.StreamReaction) (h : gmap loc object) (conditions : loc)
    (c : object) :
  h !! conditions = Some c →
  prop c "limit" = VUndefined →
  truthy_axes c = 1%nat →
  ∃ url q,
    sent (run (Reaction.filter this conditions) h) = Some (url, Reaction.token this, q)
    ∧ q !! "limit" = Some (VNum 10).
Proof.
  intros Hc Hl H1.
  destruct (filter_sends this h conditions c Hc H1) as (a & q & _ & _ & _ & _ & Hsent & Hq).
  eexists _, q. split; [exact Hsent|].
  rewrite Hq, Hl. rewrite decide_True; done.
Qed.

Lemma filter_limit_defaults_to_10_witness :
  ∃ url q,
    sent (run (Reaction.filter sample_client 1%positive) (store_of by_user_and_kind))
    = Some (url, "token", q)
    ∧ q !! "limit" = Some (VNum 10).
Proof.
  apply (filter_limit_defaults_to_10 sample_client (store_of by_user_and_kind)
           1%positive by_user_and_kind); reflexivity.
Defined.

(** C8: an axis field holding the empty string counts as absent. Conditions
    whose axis fields are all absent or empty, such as [{user_id: ""}], are
    rejected like conditions with no axis; conditions with one axis field
    empty, another holding a non-empty string and the third absent pass the
    validation, and the request goes to the non-empty axis. *)
Theorem filter_empty_axis_counts_as_absent
    (this : Reaction.StreamReaction) (h : gmap loc object) (conditions : loc)
    (c : object) :
  h !! conditions = Some c →
  ((∀ k, k ∈ axis_fields → c !! k = None ∨ c !! k = Some (VStr "")) →
   rejected (run (Reaction.filter this conditions) h))
  ∧ (∀ (a b v : string) (kind : option string),
       a ∈ axis_fields → b ∈ axis_fields → a ≠ b →
       c !! a = Some (VStr "") → c !! b = Some (VStr v) → v ≠ "" →
       (∀ k, k ∈ axis_fields → k ≠ a → k ≠ b → c !! k = None) →
       c !! "kind" = VStr <$> kind →
       ∃ q,
         sent (run (Reaction.filter this conditions) h)
         = Some ("reaction/" ++ b ++ "/" ++ v ++ "/"
                   ++ match kind with
                      | Some k => if decide (k = "") then "" else k ++ "/"
                      | None => ""
                      end,
                 Reaction.token this, q)).
Proof.
  intros Hc. split.
  - intros Hall. apply filter_rejects with (c := c); [exact Hc|].
    assert (∀ k, k ∈ axis_fields → truthy (prop c k) = false) as Hf.
    { intros k Hk. unfold prop. destruct (Hall k Hk) as [-> | ->]; reflexivity. }
    unfold truthy_axes, axis_fields. cbn [List.filter].
    rewrite !Hf by (apply elem_of_axis_fields; tauto). discriminate.
  - intros a b v kind Ha Hb Hab Hea Hvb Hne Hthird Hkind.
    destruct (filter_request this h conditions c Hc b v kind Hb Hvb Hne) as (q & Hsent & _).
    + intros k Hk Hkb. unfold prop. destruct (decide (k = a)) as [-> | Hka].
      * rewrite Hea. reflexivity.
      * rewrite (Hthird k Hk Hka Hkb). reflexivity.
    + exact Hkind.
    + exists q. exact Hsent.
Qed.

Lemma sample_axes_absent_or_empty :
  ∀ k, k ∈ axis_fields → empty_user !! k = None ∨ empty_user !! k = Some (VStr "").
Proof.
  intros k [-> | [-> | ->]]%elem_of_axis_fields; [right | left | left]; reflexivity.
Qed.

Lemma sample_third_axis_absent :
  ∀ k, k ∈ axis_fields → k ≠ "user_id" → k ≠ "activity_id" →
       empty_user_and_activity !! k = None.
Proof. intros k [-> | [-> | ->]]%elem_of_axis_fields ??; done. Qed.

Lemma filter_empty_axis_counts_as_absent_witness :
  rejected (run (Reaction.filter sample_client 1%positive) (store_of empty_user))
  ∧ ∃ q,
      sent (run (Reaction.filter sample_client 1%positive)
              (store_of empty_user_and_activity))
      = Some ("reaction/activity_id/a1/", "token", q).
Proof.
  split.
  - apply (filter_empty_axis_counts_as_absent sample_client (store_of empty_user)
             1%positive empty_user eq_refl).
    exact sample_axes_absent_or_empty.
  - apply (proj2 (filter_empty_axis_counts_as_absent sample_client
                    (store_of empty_user_and_activity) 1%positive
                    empty_user_and_activity eq_refl)
             "user_id" "activity_id" "a1" None).
    + apply elem_of_axis_fields. left. reflexivity.
    + apply elem_of_axis_fields. right. left. reflexivity.
    + discriminate.
    + reflexivity.
    + reflexivity.
    + discriminate.
    + exact sample_third_axis_absent.
    + reflexivity.
Defined.

(** C9: with [limit] set to 0 the query of the request carries
    [limit = 10]; no request carries [limit = 0]. *)
Theorem filter_never_sends_limit_zero
    (this : Reaction.StreamReaction) (h : gmap loc object) (conditions : loc)
    (c : object) :
  h !! conditions = Some c →
  truthy_axes c = 1%nat →
  ∃ url q,
    sent (run (Reaction.filter this conditions) h) = Some (url, Reaction.token this, q)
    ∧ (c !! "limit" = Some (VNum 0) → q !! "limit" = Some (VNum 10))
    ∧ q !! "limit" ≠ Some (VNum 0).
Proof.
  intros Hc H1.
  destruct (filter_sends this h conditions c Hc H1) as (a & q & _ & _ & _ & _ & Hsent & Hq).
  eexists _, q. split; [exact Hsent|]. rewrite Hq. split.
  - intros Hl. rewrite decide_True; [done|]. unfold prop. rewrite Hl. done.
  - destruct (truthy (prop c "limit")) eqn:Hl.
    + rewrite decide_False by (intros [_ ?]; discriminate).
      rewrite decide_False
        by (rewrite elem_of_axis_fields; intros [?|[?|?]]; discriminate).
      intros E. unfold prop in Hl. rewrite E in Hl. discriminate.
    + rewrite decide_True by done. discriminate.
Qed.

Lemma filter_never_sends_limit_zero_witness :
  by_activity_limit_zero !! "limit" = Some (VNum 0)
  ∧ ∃ url q,
      sent (run (Reaction.filter sample_client 1%positive)
              (store_of by_activity_limit_zero))
      = Some (url, "token", q)
      ∧ (by_activity_limit_zero !! "limit" = Some (VNum 0) →
         q !! "limit" = Some (VNum 10))
      ∧ q !! "limit" ≠ Some (VNum 0).
Proof.
  split; [reflexivity|].
  apply (filter_never_sends_limit_zero sample_client (store_of by_activity_limit_zero)
           1%positive by_activity_limit_zero); reflexivity.
Defined.

(** C10: [filter] leaves every object of the caller's store as it was, the
    conditions among them; conditions without [limit] are still without it
    after the call. *)
Theorem filter_does_not_mutate_conditions
    (this : Reaction.StreamReaction) (h : gmap loc object) (conditions : loc) :
  (∀ l o, h !! l = Some o →
          heap (run (Reaction.filter this conditions) h).2 !! l = Some o)
  ∧ (∀ c, h !! conditions = Some c → c !! "limit" = None →
          ∃ c', heap (run (Reaction.filter this conditions) h).2 !! conditions = Some c'
                ∧ c' !! "limit" = None).
Proof.
  assert (∀ l o, h !! l = Some o →
            heap (run (Reaction.filter this conditions) h).2 !! l = Some o) as Hframe.
  { intros l o Hl. destruct (h !! conditions) as [c|] eqn:Hc.
    - rewrite (filter_run this h conditions c Hc). cbn zeta.
      assert (fresh (dom h) ≠ l) as Hne.
      { intros E. pose proof (qs_fresh h) as F. rewrite E, Hl in F. discriminate. }
      destruct (bool_decide (truthy_axes c = 1%nat)); cbn [snd heap];
        rewrite lookup_insert_ne by done; exact Hl.
    - unfold run, Reaction.filter. run_step. rewrite Hc. exact Hl. }
  split; [exact Hframe|].
  intros c Hc Hl. exists c. split; [apply Hframe, Hc | exact Hl].
Qed.

Lemma filter_does_not_mutate_conditions_witness :
  heap (run (Reaction.filter sample_client 1%positive) (store_of by_user_and_kind)).2
    !! 1%positive = Some by_user_and_kind
  ∧ ∃ c', heap (run (Reaction.filter sample_client 1%positive)
                  (store_of by_user_and_kind)).2 !! 1%positive = Some c'
          ∧ c' !! "limit" = None.
Proof.
  split.
  - apply (proj1 (filter_does_not_mutate_conditions sample_client
                    (store_of by_user_and_kind) 1%positive)).
    reflexivity.
  - apply (proj2 (filter_does_not_mutate_conditions sample_client
                    (store_of by_user_and_kind) 1%positive) by_user_and_kind);
      reflexivity.
Defined.

(** ** More on [filter]: the limit, the query object, repeated calls *)

(** [filter], started in any state of the store and of the call log. *)
Lemma filter_run_from (this : Reaction.StreamReaction) (st : state)
    (conditions : loc) (c : object) :
  heap st !! conditions = Some c →
  Reaction.filter this conditions st =
    let qs := fresh (dom (heap st)) in
    let r := rest_props axis_fields c in
    let q := if truthy (prop r "limit") then r else <["limit" := VNum 10]> r in
    let lookupType :=
      js_or (js_or (js_and (prop c "user_id") (VStr "user_id"))
                   (js_and (prop c "activity_id") (VStr "activity_id")))
            (js_and (prop c "reaction_id") (VStr "reaction_id")) in
    let value := js_or (js_or (prop c "user_id") (prop c "activity_id"))
                       (prop c "reaction_id") in
    let url :=
      if truthy (prop c "kind")
      then Reaction.buildURL [lookupType; value; prop c "kind"]
      else Reaction.buildURL [lookupType; value] in
    if bool_decide (truthy_axes c = 1%nat)
    then (Return tt,
          MkState (<[qs := q]> (heap st))
                  (calls st ++ [MkGet url (Some qs) (Reaction.token this)]))
    else (Throw (SiteError Reaction.filter_message),
          MkState (<[qs := q]> (heap st)) (calls st)).
Proof.
  destruct st as [h cs]. cbn [heap calls]. intros Hc.
  assert (fresh (dom h) ≠ conditions) as Hne by (apply qs_not_conditions with c, Hc).
  unfold Reaction.filter. fold axis_fields.
  run_step. rewrite Hc. run_step.
  rewrite lookup_insert_eq. run_step.
  rewrite truthy_axes_count.
  destruct (truthy (prop (rest_props axis_fields c) "limit")); cbn [negb]; run_step.
  - destruct (bool_decide (truthy_axes c = 1%nat)); cbn [negb]; run_step; [|done].
    rewrite lookup_insert_ne, Hc by done. reflexivity.
  - rewrite lookup_insert_eq, insert_insert_eq.
    destruct (bool_decide (truthy_axes c = 1%nat)); cbn [negb]; run_step; [|done].
    rewrite lookup_insert_ne, Hc by done. reflexivity.
Qed.

(** X1: the query of an issued request always carries a truthy [limit], and a
    truthy [limit] of the conditions is forwarded as it is, however large:
    [filter] puts no bound on it. *)
Theorem filter_forwards_truthy_limit
    (this : Reaction.StreamReaction) (h : gmap loc object) (conditions : loc)
    (c : object) :
  h !! conditions = Some c →
  truthy_axes c = 1%nat →
  ∃ url q,
    sent (run (Reaction.filter this conditions) h) = Some (url, Reaction.token this, q)
    ∧ truthy (prop q "limit") = true
    ∧ (truthy (prop c "limit") = true → q !! "limit" = c !! "limit").
Proof.
  intros Hc H1.
  destruct (filter_sends this h conditions c Hc H1)
    as (a & q & _ & _ & _ & _ & Hsent & Hq).
  eexists _, q. split; [exact Hsent|].
  assert ("limit" ∉ axis_fields) as Hna.
  { rewrite elem_of_axis_fields. intros [?|[?|?]]; discriminate. }
  unfold prop at 1. rewrite Hq.
  destruct (truthy (prop c "limit")) eqn:Hl.
  - rewrite decide_False by (intros [_ ?]; discriminate).
    rewrite decide_False by done. split; [exact Hl | done].
  - rewrite decide_True by done. split; [reflexivity | discriminate].
Qed.

Lemma filter_forwards_truthy_limit_witness :
  ∃ url q,
    sent (run (Reaction.filter sample_client 1%positive)
            (store_of by_reaction_limit_1000))
    = Some (url, "token", q)
    ∧ truthy (prop q "limit") = true
    ∧ (truthy (prop by_reaction_limit_1000 "limit") = true →
       q !! "limit" = Some (VNum 1000)).
Proof.
  apply (filter_forwards_truthy_limit sample_client (store_of by_reaction_limit_1000)
           1%positive by_reaction_limit_1000); reflexivity.
Defined.

(** X2: the [qs] object of an issued request is a new object: it is not in
    the caller's store before the call, it is not the conditions, and it is
    the only object the call adds to the store. *)
Theorem filter_query_object_is_new
    (this : Reaction.StreamReaction) (h : gmap loc object) (conditions : loc)
    (c : object) :
  h !! conditions = Some c →
  truthy_axes c = 1%nat →
  ∃ url qs,
    calls (run (Reaction.filter this conditions) h).2
    = [MkGet url (Some qs) (Reaction.token this)]
    ∧ h !! qs = None
    ∧ qs ≠ conditions
    ∧ dom (heap (run (Reaction.filter this conditions) h).2) = {[ qs ]} ∪ dom h.
Proof.
  intros Hc H1. rewrite (filter_run this h conditions c Hc). cbn zeta.
  rewrite bool_decide_eq_true_2 by done. cbn [snd calls heap].
  eexists _, (fresh (dom h)). split; [reflexivity|].
  split; [apply qs_fresh|]. split; [apply qs_not_conditions with c, Hc|].
  apply dom_insert_L.
Qed.

Lemma filter_query_object_is_new_witness :
  ∃ url qs,
    calls (run (Reaction.filter sample_client 1%positive)
             (store_of by_user_and_kind)).2
    = [MkGet url (Some qs) "token"]
    ∧ store_of by_user_and_kind !! qs = None
    ∧ qs ≠ 1%positive
    ∧ dom (heap (run (Reaction.filter sample_client 1%positive)
                   (store_of by_user_and_kind)).2)
      = {[ qs ]} ∪ dom (store_of by_user_and_kind).
Proof.
  apply (filter_query_object_is_new sample_client (store_of by_user_and_kind)
           1%positive by_user_and_kind); reflexivity.
Defined.

(** X3: [filter] can be called again with the same conditions object: two
    calls in a row issue two requests with the same URL and the same query
    parameters, held in two different objects, and the conditions are still
    what they were. *)
Theorem filter_twice_same_request
    (this : Reaction.StreamReaction) (h : gmap loc object) (conditions : loc)
    (c : object) :
  h !! conditions = Some c →
  truthy_axes c = 1%nat →
  ∃ url qs1 qs2 q,
    (run (Reaction.filter this conditions
          ≫= λ _, Reaction.filter this conditions) h).1 = Return tt
    ∧ calls (run (Reaction.filter this conditions
                  ≫= λ _, Reaction.filter this conditions) h).2
      = [MkGet url (Some qs1) (Reaction.token this);
         MkGet url (Some qs2) (Reaction.token this)]
    ∧ qs1 ≠ qs2
    ∧ heap (run (Reaction.filter this conditions
                 ≫= λ _, Reaction.filter this conditions) h).2 !! qs1 = Some q
    ∧ heap (run (Reaction.filter this conditions
                 ≫= λ _, Reaction.filter this conditions) h).2 !! qs2 = Some q
    ∧ heap (run (Reaction.filter this conditions
                 ≫= λ _, Reaction.filter this conditions) h).2 !! conditions
      = Some c.
Proof.
  intros Hc H1. unfold run. rewrite bind_run.
  rewrite (filter_run_from this (MkState h []) conditions c Hc). cbn zeta.
  rewrite bool_decide_eq_true_2 by done. cbn [heap calls app].
  set (qs1 := fresh (dom h)).
  set (q := if truthy (prop (rest_props axis_fields c) "limit")
            then rest_props axis_fields c
            else <["limit" := VNum 10]> (rest_props axis_fields c)).
  assert (qs1 ≠ conditions) as Hne1 by (apply qs_not_conditions with c, Hc).
  assert (<[qs1 := q]> h !! conditions = Some c) as Hc2
    by (rewrite lookup_insert_ne by done; exact Hc).
  rewrite (filter_run_from this (MkState (<[qs1 := q]> h) _) conditions c Hc2).
  cbn zeta.
  rewrite bool_decide_eq_true_2 by done. cbn [heap calls app fst snd].
  set (qs2 := fresh (dom (<[qs1 := q]> h))).
  assert (qs2 ≠ conditions) as Hne2 by (apply qs_not_conditions with c, Hc2).
  assert (qs1 ≠ qs2) as Hne12.
  { intros E. pose proof (qs_fresh (<[qs1 := q]> h)) as F. fold qs2 in F.
    rewrite <- E, lookup_insert_eq in F. discriminate. }
  eexists _, qs1, qs2, q. split; [reflexivity|]. split; [reflexivity|].
  split; [exact Hne12|]. split; [|split].
  - rewrite lookup_insert_ne by done. apply lookup_insert_eq.
  - apply lookup_insert_eq.
  - rewrite lookup_insert_ne by done. exact Hc2.
Qed.

Lemma filter_twice_same_request_witness :
  ∃ url qs1 qs2 q,
    (run (Reaction.filter sample_client 1%positive
          ≫= λ _, Reaction.filter sample_client 1%positive)
       (store_of by_user_and_kind)).1 = Return tt
    ∧ calls (run (Reaction.filter sample_client 1%positive
                  ≫= λ _, Reaction.filter sample_client 1%positive)
               (store_of by_user_and_kind)).2
      = [MkGet url (Some qs1) "token"; MkGet url (Some qs2) "token"]
    ∧ qs1 ≠ qs2
    ∧ heap (run (Reaction.filter sample_client 1%positive
                 ≫= λ _, Reaction.filter sample_client 1%positive)
              (store_of by_user_and_kind)).2 !! qs1 = Some q
    ∧ heap (run (Reaction.filter sample_client 1%positive
                 ≫= λ _, Reaction.filter sample_client 1%positive)
              (store_of by_user_and_kind)).2 !! qs2 = Some q
    ∧ heap (run (Reaction.filter sample_client 1%positive
                 ≫= λ _, Reaction.filter sample_client 1%positive)
              (store_of by_user_and_kind)).2 !! 1%positive
      = Some by_user_and_kind.
Proof.
  apply (filter_twice_same_request sample_client (store_of by_user_and_kind)
           1%positive by_user_and_kind); reflexivity.
Defined.

(** X4: [filter] does not escape the segments of the URL: conditions whose
    axis value is [v/k], without [kind], go to the same URL as conditions
    with the axis value [v] and the kind [k]. *)
Theorem filter_url_segments_not_escaped
    (this : Reaction.StreamReaction) (h1 h2 : gmap loc object) (l1 l2 : loc)
    (c1 c2 : object) (axis v k : string) :
  h1 !! l1 = Some c1 → h2 !! l2 = Some c2 →
  axis ∈ axis_fields → v ≠ "" → k ≠ "" →
  c1 !! axis = Some (VStr (v ++ "/" ++ k)) → c1 !! "kind" = None →
  (∀ f, f ∈ axis_fields → f ≠ axis → truthy (prop c1 f) = false) →
  c2 !! axis = Some (VStr v) → c2 !! "kind" = Some (VStr k) →
  (∀ f, f ∈ axis_fields → f ≠ axis → truthy (prop c2 f) = false) →
  ∃ q1 q2,
    sent (run (Reaction.filter this l1) h1)
    = Some ("reaction/" ++ axis ++ "/" ++ v ++ "/" ++ k ++ "/",
            Reaction.token this, q1)
    ∧ sent (run (Reaction.filter this l2) h2)
      = Some ("reaction/" ++ axis ++ "/" ++ v ++ "/" ++ k ++ "/",
              Reaction.token this, q2).
Proof.
  intros Hc1 Hc2 Haxis Hv Hk Hv1 Hk1 Ho1 Hv2 Hk2 Ho2.
  assert (v ++ "/" ++ k ≠ "") as Hvk.
  { destruct v as [|a v]; [done|]. discriminate. }
  destruct (filter_request this h1 l1 c1 Hc1 axis (v ++ "/" ++ k) None
              Haxis Hv1 Hvk Ho1 Hk1) as (q1 & Hs1 & _).
  destruct (filter_request this h2 l2 c2 Hc2 axis v (Some k)
              Haxis Hv2 Hv Ho2 Hk2) as (q2 & Hs2 & _).
  exists q1, q2. split.
  - rewrite Hs1. do 3 f_equal. rewrite !append_assoc. reflexivity.
  - rewrite Hs2. rewrite decide_False by done. reflexivity.
Qed.

Lemma sample_slash_other_axes_falsy :
  ∀ f, f ∈ axis_fields → f ≠ "user_id" → truthy (prop by_user_with_slash f) = false.
Proof. apply sample_other_axes_falsy; reflexivity. Qed.

Lemma sample_kind_other_axes_falsy :
  ∀ f, f ∈ axis_fields → f ≠ "user_id" → truthy (prop by_user_and_kind f) = false.
Proof. apply sample_other_axes_falsy; reflexivity. Qed.

Lemma filter_url_segments_not_escaped_witness :
  ∃ q1 q2,
    sent (run (Reaction.filter sample_client 1%positive) (store_of by_user_with_slash))
    = Some ("reaction/user_id/john/like/", "token", q1)
    ∧ sent (run (Reaction.filter sample_client 1%positive) (store_of by_user_and_kind))
      = Some ("reaction/user_id/john/like/", "token", q2).
Proof.
  apply (filter_url_segments_not_escaped sample_client
           (store_of by_user_with_slash) (store_of by_user_and_kind)
           1%positive 1%positive by_user_with_slash by_user_and_kind
           "user_id" "john" "like" eq_refl eq_refl).
  - apply elem_of_axis_fields. left. reflexivity.
  - discriminate.
  - discriminate.
  - reflexivity.
  - reflexivity.
  - exact sample_slash_other_axes_falsy.
  - reflexivity.
  - reflexivity.
  - exact sample_kind_other_axes_falsy.
Defined.

(** ** More on the request builders *)

Section MoreBodies.
Context {ReactionType ChildReactionType U : Type}.
Variable this : Reaction.StreamReaction.

Lemma convert_is_map (l : Reaction.TargetFeeds) :
  Reaction._convertTargetFeeds (Some l) = map feed_identifier l.
Proof. reflexivity. Qed.

(** X5: a feed handle and its identifier are interchangeable in
    [targetFeeds]: two lists with the same identifiers, entry by entry, give
    the same [add] request and the same [addChild] request, and [update]
    with feed handles is [update] with their identifiers. *)
Theorem target_feeds_handle_or_identifier
    (l1 l2 : Reaction.TargetFeeds) (feeds : list Reaction.StreamFeed.t)
    (kind id : string) (x : string + Reaction.IdObject.t)
    (data : option ReactionType) (dataC : option ChildReactionType)
    (dataU : ReactionType + ChildReactionType)
    (rid userId : option string)
    (extra : option (Reaction.TargetFeedsExtraData U)) :
  map feed_identifier l1 = map feed_identifier l2 →
  Reaction.add this kind x data
    (Some (Reaction.AddOptions.Mk rid (Some l1) extra userId))
  = Reaction.add this kind x data
      (Some (Reaction.AddOptions.Mk rid (Some l2) extra userId))
  ∧ Reaction.addChild this kind x dataC
      (Some (Reaction.AddChildOptions.Mk (Some l1) extra userId))
    = Reaction.addChild this kind x dataC
        (Some (Reaction.AddChildOptions.Mk (Some l2) extra userId))
  ∧ Reaction.update this id dataU
      (Some (Reaction.UpdateOptions.Mk (Some (inr feeds)) extra))
    = Reaction.update this id dataU
        (Some (Reaction.UpdateOptions.Mk
                 (Some (inl (map Reaction.StreamFeed.id feeds))) extra)).
Proof.
  intros H. split; [|split].
  - unfold Reaction.add.
    cbn [default from_option Datatypes.id Reaction.AddOptions.targetFeeds
         Reaction.AddOptions.id Reaction.AddOptions.userId
         Reaction.AddOptions.targetFeedsExtraData].
    rewrite !convert_is_map, H. reflexivity.
  - unfold Reaction.addChild.
    cbn [default from_option Datatypes.id Reaction.AddChildOptions.targetFeeds
         Reaction.AddChildOptions.userId
         Reaction.AddChildOptions.targetFeedsExtraData].
    rewrite !convert_is_map, H. reflexivity.
  - unfold Reaction.update.
    cbn [default from_option Datatypes.id Reaction.UpdateOptions.targetFeeds
         Reaction.UpdateOptions.targetFeedsExtraData Reaction.as_TargetFeeds].
    rewrite convert_feeds, convert_strings. reflexivity.
Qed.

(** X6: the normalisation of target feeds is the empty list when no list is
    given, goes through concatenation, and changes nothing in a list that
    is already normalised. *)
Theorem convertTargetFeeds_idempotent (l1 l2 : Reaction.TargetFeeds) :
  Reaction._convertTargetFeeds None = []
  ∧ Reaction._convertTargetFeeds (Some (l1 ++ l2)%list)
    = (Reaction._convertTargetFeeds (Some l1)
       ++ Reaction._convertTargetFeeds (Some l2))%list
  ∧ Reaction._convertTargetFeeds
      (Some (map inl (Reaction._convertTargetFeeds (Some l1))))
    = Reaction._convertTargetFeeds (Some l1).
Proof.
  split; [reflexivity|]. split.
  - rewrite !convert_is_map. apply map_app.
  - apply convert_strings.
Qed.

(** X7: for [add] and [addChild], no option bag, an empty option bag and a
    bag with an empty [targetFeeds] give the same request, whose body has an
    empty [target_feeds] array and no [target_feeds_extra_data]. *)
Theorem add_defaults
    (kind : string) (x : string + Reaction.IdObject.t)
    (data : option ReactionType) (dataC : option ChildReactionType) :
  (Reaction.add (U := U) this kind x data None
   = Reaction.add this kind x data (Some Reaction.AddOptions.empty)
   ∧ Reaction.add (U := U) this kind x data None
     = Reaction.add this kind x data
         (Some (Reaction.AddOptions.Mk None (Some []) None None))
   ∧ Reaction.body (Reaction.add (U := U) this kind x data None) !! "target_feeds"
     = Some (Reaction.BStrings [])
   ∧ Reaction.body (Reaction.add (U := U) this kind x data None)
       !! "target_feeds_extra_data" = None)
  ∧ (Reaction.addChild (U := U) this kind x dataC None
     = Reaction.addChild this kind x dataC (Some Reaction.AddChildOptions.empty)
     ∧ Reaction.addChild (U := U) this kind x dataC None
       = Reaction.addChild this kind x dataC
           (Some (Reaction.AddChildOptions.Mk (Some []) None None))
     ∧ Reaction.body (Reaction.addChild (U := U) this kind x dataC None)
         !! "target_feeds" = Some (Reaction.BStrings [])
     ∧ Reaction.body (Reaction.addChild (U := U) this kind x dataC None)
         !! "target_feeds_extra_data" = None).
Proof. repeat split; reflexivity. Qed.

(** X8: [update], [get] and [delete] of an id address the same URL,
    [reaction/{id}/], while [add] and [addChild] post to [reaction/]; all of
    them carry the token of the client. [get] makes its one call without
    query and leaves the store as it is. *)
Theorem resource_urls
    (id kind : string) (x : string + Reaction.IdObject.t)
    (data : option ReactionType) (dataC : option ChildReactionType)
    (dataU : ReactionType + ChildReactionType)
    (options : option (Reaction.AddOptions.t U))
    (optionsC : option (Reaction.AddChildOptions.t U))
    (optionsU : option (Reaction.UpdateOptions.t U))
    (h : gmap loc object) :
  (Reaction.url (Reaction.update this id dataU optionsU) = "reaction/" ++ id ++ "/"
   ∧ Reaction.signature (Reaction.update this id dataU optionsU)
     = Reaction.token this)
  ∧ Reaction.delete this id
    = Reaction.MkDeleteOptions ("reaction/" ++ id ++ "/") (Reaction.token this)
  ∧ run (Reaction.get this id) h
    = (Return tt,
       MkState h [MkGet ("reaction/" ++ id ++ "/") None (Reaction.token this)])
  ∧ (Reaction.url (Reaction.add this kind x data options) = "reaction/"
     ∧ Reaction.signature (Reaction.add this kind x data options)
       = Reaction.token this)
  ∧ (Reaction.url (Reaction.addChild this kind x dataC optionsC) = "reaction/"
     ∧ Reaction.signature (Reaction.addChild this kind x dataC optionsC)
       = Reaction.token this).
Proof.
  assert (Reaction.buildURL [VStr id] = "reaction/" ++ id ++ "/") as Hurl
    by apply (buildURL_strings [id]).
  split; [split; [exact Hurl | reflexivity]|].
  split; [unfold Reaction.delete; rewrite Hurl; reflexivity|].
  split; [unfold run, Reaction.get, client_get; rewrite Hurl; reflexivity|].
  split; split; reflexivity.
Qed.
End MoreBodies.

Lemma target_feeds_handle_or_identifier_witness :
  Reaction.add (ReactionType := unit) (U := unit) sample_client "like" (inl "a1")
    (Some tt) (Some (Reaction.AddOptions.Mk None (Some sample_feeds) None None))
  = Reaction.add sample_client "like" (inl "a1") (Some tt)
      (Some (Reaction.AddOptions.Mk None (Some sample_feed_ids) None None)).
Proof.
  apply (target_feeds_handle_or_identifier (ReactionType := unit)
           (ChildReactionType := unit) (U := unit) sample_client
           sample_feeds sample_feed_ids [] "like" "r1" (inl "a1") (Some tt) (Some tt)
           (inl tt) None None None).
  reflexivity.
Defined.
